(** * basic.py: manual wiring versus an injecting object graph

    A shallow embedding of [src/basic.py].  Python objects live in a
    store indexed by their identity; every function of the module is a
    computation over that store, the lines written to standard output and
    a log of the [create_order] calls that were dispatched. *)

From stdpp Require Import base strings gmap list.

Local Open Scope string_scope.
Local Open Scope list_scope.
Local Open Scope nat_scope.

(** ** Values, classes and instances *)

(** The identity of an object ([id(x)]): its index in the store. *)
Definition loc := nat.

Inductive value :=
  | VNone
  | VBool (b : bool)
  | VStr (s : string)
  | VRef (l : loc).

(** The six classes the module declares. *)
Inductive pyclass :=
  | Order
  | OrderContext
  | SqlLiteOrderContext
  | MemoryOrderContext
  | OrderService
  | OrderContextBindingSpec.

#[global] Instance value_eq_dec : EqDecision value.
Proof. solve_decision. Defined.

#[global] Instance pyclass_eq_dec : EqDecision pyclass.
Proof. solve_decision. Defined.

(** [cls.__name__] *)
Definition class_name (c : pyclass) : string :=
  match c with
  | Order => "Order"
  | OrderContext => "OrderContext"
  | SqlLiteOrderContext => "SqlLiteOrderContext"
  | MemoryOrderContext => "MemoryOrderContext"
  | OrderService => "OrderService"
  | OrderContextBindingSpec => "OrderContextBindingSpec"
  end.

(** [OrderContext] keeps an [@abstractmethod]; the others can be
    instantiated. *)
Definition is_abstract (c : pyclass) : bool :=
  match c with
  | OrderContext => true
  | _ => false
  end.

(** An instance: its class and its attribute dictionary ([__dict__]). *)
Record instance := Instance {
  cls : pyclass;
  attrs : gmap string value
}.

(** ** The injecting container's data *)

Inductive scope := SINGLETON | PROTOTYPE.

#[global] Instance scope_eq_dec : EqDecision scope.
Proof. solve_decision. Defined.

(** What [bind(arg_name, to_class=..., in_scope=...)] records. *)
Record binding := Binding {
  to_class : pyclass;
  in_scope : scope
}.

(** An object graph: the bindings by argument name, and the instances
    already built for singleton-scoped bindings. *)
Record object_graph := ObjectGraph {
  bindings : gmap string binding;
  singletons : gmap string value
}.

(** ** The world a computation runs in *)

(** One dispatched method call: receiver, method name, argument. *)
Record call := Call {
  receiver : value;
  method : string;
  argument : value
}.

Record world := World {
  heap : list instance;
  graphs : list object_graph;
  stdout : list string;
  calls : list call
}.

Definition empty_world : world :=
  {| heap := []; graphs := []; stdout := []; calls := [] |}.

(** The exceptions a computation can end with.  The first two are
    Python's, the next three the container's configuration errors.
    [InvalidReference] stands for a reference to no stored object, which
    no Python program can hold, and [OutOfFuel] for the depth bound of the
    embedding's recursion; [provide] never ends with it
    ([provide_fuel_suffices]). *)
Inductive exn :=
  | AttributeError (name : string)
  | TypeError (msg : string)
  | BindingNotFoundError (arg_name : string)
  | ConflictingBindingsError (arg_name : string)
  | CyclicDependencyError (c : pyclass)
  | InvalidReference
  | OutOfFuel.

Inductive outcome (A : Type) :=
  | Ok (a : A)
  | Raise (e : exn).

Arguments Ok {A} a.
Arguments Raise {A} e.

(** A computation: from a world to an outcome and the world it leaves. *)
Definition M (A : Type) : Type := world → outcome A * world.

Definition ret {A} (a : A) : M A := fun w => (Ok a, w).

Definition raise {A} (e : exn) : M A := fun w => (Raise e, w).

Definition and_then {A B} (m : M A) (k : A → M B) : M B :=
  fun w =>
    match m w with
    | (Ok a, w') => k a w'
    | (Raise e, w') => (Raise e, w')
    end.

Notation "x <~ m ;; k" := (and_then m (fun x => k))
  (at level 100, m at next level, right associativity).
Notation "m ;;; k" := (and_then m (fun _ => k))
  (at level 100, right associativity).

(** The binding table under construction. *)
Definition collector : Type := gmap string binding → outcome (gmap string binding).

(** The [bind] callable handed to [configure]. *)
Definition binder : Type := string → pyclass → scope → collector.

(** ** Store primitives *)

(** [print(line)] *)
Definition print (line : string) : M unit :=
  fun w =>
    (Ok tt, {| heap := heap w; graphs := graphs w;
               stdout := stdout w ++ [line]; calls := calls w |}).

(** Note a dispatched call in the log. *)
Definition log_call (c : call) : M unit :=
  fun w =>
    (Ok tt, {| heap := heap w; graphs := graphs w;
               stdout := stdout w; calls := calls w ++ [c] |}).

(** A fresh instance of [c] with an empty attribute dictionary. *)
Definition alloc (c : pyclass) : M loc :=
  fun w =>
    (Ok (length (heap w)),
     {| heap := heap w ++ [{| cls := c; attrs := ∅ |}]; graphs := graphs w;
        stdout := stdout w; calls := calls w |}).

(** [self.name = v] *)
Definition setattr (self : loc) (name : string) (v : value) : M unit :=
  fun w =>
    match heap w !! self with
    | Some i =>
        (Ok tt,
         {| heap := <[self := {| cls := cls i; attrs := <[name := v]> (attrs i) |}]> (heap w);
            graphs := graphs w; stdout := stdout w; calls := calls w |})
    | None => (Raise InvalidReference, w)
    end.

(** [obj.name], for an attribute kept in the instance dictionary. *)
Definition getattr (obj : value) (name : string) : M value :=
  fun w =>
    match obj with
    | VRef l =>
        match heap w !! l with
        | Some i =>
            match attrs i !! name with
            | Some v => (Ok v, w)
            | None => (Raise (AttributeError name), w)
            end
        | None => (Raise InvalidReference, w)
        end
    | _ => (Raise (AttributeError name), w)
    end.

(** [obj.__class__.__name__] *)
Definition type_name (obj : value) : M string :=
  fun w =>
    match obj with
    | VNone => (Ok "NoneType", w)
    | VBool _ => (Ok "bool", w)
    | VStr _ => (Ok "str", w)
    | VRef l =>
        match heap w !! l with
        | Some i => (Ok (class_name (cls i)), w)
        | None => (Raise InvalidReference, w)
        end
    end.

(** [a is b] *)
Definition is_ (a b : value) : bool := bool_decide (a = b).

(** [str(b)] for a boolean, as [print] shows it. *)
Definition str_bool (b : bool) : string := if b then "True" else "False".

(** ** The classes of basic.py *)

(** [Order.__init__] (lines 6-7) *)
Definition Order_init (self : loc) (order_id : value) : M unit :=
  setattr self "order_id" order_id.

(** [SqlLiteOrderContext.create_order] (lines 17-18) *)
Definition SqlLiteOrderContext_create_order (self order : value) : M value :=
  name <~ type_name self ;;
  print ("Order created by " +:+ name) ;;;
  ret VNone.

(** [MemoryOrderContext.create_order] (lines 22-23) *)
Definition MemoryOrderContext_create_order (self order : value) : M value :=
  name <~ type_name self ;;
  print ("Order created by " +:+ name) ;;;
  ret VNone.

(** [OrderService.__init__] (lines 27-28) *)
Definition OrderService_init (self : loc) (order_context : value) : M unit :=
  setattr self "order_context" order_context.

(** The [create_order] a class provides to its instances, if any.  The
    abstract [OrderContext.create_order] is never reached: the class has
    no instances. *)
Definition find_create_order (c : pyclass) : option (value → value → M value) :=
  match c with
  | SqlLiteOrderContext => Some SqlLiteOrderContext_create_order
  | MemoryOrderContext => Some MemoryOrderContext_create_order
  | _ => None
  end.

(** [obj.create_order(arg)].  The attribute is looked up on the
    instance first: an entry of its dictionary hides the method of the
    class, and no value that can be stored there is callable.  Otherwise
    the method of the class is called, which the log records. *)
Definition call_create_order (obj arg : value) : M value :=
  fun w =>
    match obj with
    | VRef l =>
        match heap w !! l with
        | Some i =>
            match attrs i !! "create_order" with
            | Some _ => (Raise (TypeError "object is not callable"), w)
            | None =>
                match find_create_order (cls i) with
                | Some body =>
                    (log_call {| receiver := obj; method := "create_order";
                                 argument := arg |} ;;;
                     body obj arg) w
                | None => (Raise (AttributeError "create_order"), w)
                end
            end
        | None => (Raise InvalidReference, w)
        end
    | _ => (Raise (AttributeError "create_order"), w)
    end.

(** [OrderService.process_order] (lines 30-31): the result of
    [create_order] is dropped, the method has no [return]. *)
Definition OrderService_process_order (self order : value) : M value :=
  order_context <~ getattr self "order_context" ;;
  call_create_order order_context order ;;;
  ret VNone.

(** [OrderContextBindingSpec.configure] (lines 35-36) *)
Definition OrderContextBindingSpec_configure (bind : binder) : collector :=
  bind "order_context" MemoryOrderContext PROTOTYPE.

(** The [configure] a class provides to its instances, if any. *)
Definition find_configure (c : pyclass) : option (binder → collector) :=
  match c with
  | OrderContextBindingSpec => Some OrderContextBindingSpec_configure
  | _ => None
  end.

(** [c(args...)]: a new instance, initialised by the [__init__] of the class. *)
Definition new (c : pyclass) (args : list value) : M value :=
  if is_abstract c then
    raise (TypeError "Can't instantiate abstract class")
  else
    match c, args with
    | Order, [order_id] =>
        self <~ alloc Order ;; Order_init self order_id ;;; ret (VRef self)
    | OrderService, [order_context] =>
        self <~ alloc OrderService ;;
        OrderService_init self order_context ;;; ret (VRef self)
    | SqlLiteOrderContext, [] => self <~ alloc SqlLiteOrderContext ;; ret (VRef self)
    | MemoryOrderContext, [] => self <~ alloc MemoryOrderContext ;; ret (VRef self)
    | OrderContextBindingSpec, [] =>
        self <~ alloc OrderContextBindingSpec ;; ret (VRef self)
    | _, _ => raise (TypeError "wrong number of arguments")
    end.

(** ** The object graph

    [pinject] is a dependency of the module, not part of it: basic.py
    imports it and its code is not in the repository.  Its object graph
    ([new_object_graph], [bind], [provide] and the two scopes) follows
    section 4.4 of the spec: the container is built from binding
    configurations; [provide] constructs the requested type by
    recursively resolving its declared dependencies against the bindings,
    caches singleton-scoped instances across all [provide] calls on the
    same container, builds prototype-scoped ones afresh on every
    resolution, and fails with a configuration error on a dependency that
    has no binding, on an ambiguous binding and (section 7) on a cyclic
    graph. *)

(** The dependencies a class declares: the parameter names of its
    [__init__] (lines 6 and 27), which is what [bind] names on line 36. *)
Definition init_args (c : pyclass) : list string :=
  match c with
  | Order => ["order_id"]
  | OrderService => ["order_context"]
  | _ => []
  end.

(** Modelled from the spec: the [bind] the container passes to
    [configure]; a second binding for a name is ambiguous. *)
Definition add_binding : binder :=
  fun arg_name c sc bs =>
    match bs !! arg_name with
    | Some _ => Raise (ConflictingBindingsError arg_name)
    | None => Ok (<[arg_name := {| to_class := c; in_scope := sc |}]> bs)
    end.

(** Modelled from the spec: the binding specs, given by their classes,
    configured in turn. *)
Fixpoint collect_bindings (specs : list pyclass) (bs : gmap string binding)
  : outcome (gmap string binding) :=
  match specs with
  | [] => Ok bs
  | c :: rest =>
      match find_configure c with
      | Some configure =>
          match configure add_binding bs with
          | Ok bs' => collect_bindings rest bs'
          | Raise e => Raise e
          end
      | None => Raise (AttributeError "configure")
      end
  end.

(** Modelled from the spec: the class whose [configure] a binding spec
    object answers with; as for [create_order], an entry of the instance
    dictionary hides the method. *)
Definition spec_class (w : world) (spec : value) : outcome pyclass :=
  match spec with
  | VRef l =>
      match heap w !! l with
      | Some i =>
          match attrs i !! "configure" with
          | Some _ => Raise (TypeError "object is not callable")
          | None => Ok (cls i)
          end
      | None => Raise InvalidReference
      end
  | _ => Raise (AttributeError "configure")
  end.

Fixpoint spec_classes (w : world) (specs : list value) : outcome (list pyclass) :=
  match specs with
  | [] => Ok []
  | spec :: rest =>
      match spec_class w spec with
      | Ok c =>
          match spec_classes w rest with
          | Ok cs => Ok (c :: cs)
          | Raise e => Raise e
          end
      | Raise e => Raise e
      end
  end.

(** Modelled from the spec: [pinject.new_object_graph(binding_specs=...)],
    the static declarations evaluated once when the container is built. *)
Definition new_object_graph (binding_specs : list value) : M nat :=
  fun w =>
    match spec_classes w binding_specs with
    | Ok classes =>
        match collect_bindings classes ∅ with
        | Ok bs =>
            (Ok (length (graphs w)),
             {| heap := heap w;
                graphs := graphs w ++ [{| bindings := bs; singletons := ∅ |}];
                stdout := stdout w; calls := calls w |})
        | Raise e => (Raise e, w)
        end
    | Raise e => (Raise e, w)
    end.

(** Modelled from the spec: the state of container [g]. *)
Definition get_graph (g : nat) : M object_graph :=
  fun w =>
    match graphs w !! g with
    | Some og => (Ok og, w)
    | None => (Raise InvalidReference, w)
    end.

(** Modelled from the spec: the container's cache of singleton-scoped
    instances; keep [v] as the instance of binding [arg_name]. *)
Definition remember (g : nat) (arg_name : string) (v : value) : M unit :=
  fun w =>
    match graphs w !! g with
    | Some og =>
        (Ok tt,
         {| heap := heap w;
            graphs := <[g := {| bindings := bindings og;
                                singletons := <[arg_name := v]> (singletons og) |}]> (graphs w);
            stdout := stdout w; calls := calls w |})
    | None => (Raise InvalidReference, w)
    end.

(** [f] on each element in turn, stopping at the first exception. *)
Definition mapM {A B} (f : A → M B) : list A → M (list B) :=
  fix go (l : list A) : M (list B) :=
    match l with
    | [] => ret []
    | a :: l' => b <~ f a ;; bs <~ go l' ;; ret (b :: bs)
    end.

(** Modelled from the spec: one dependency resolved against the bindings
    by its scope policy; [instantiate] builds an instance of a class. *)
Definition resolve_arg (g : nat) (instantiate : pyclass → M value)
    (arg_name : string) : M value :=
  og <~ get_graph g ;;
  match bindings og !! arg_name with
  | None => raise (BindingNotFoundError arg_name)
  | Some b =>
      match in_scope b with
      | PROTOTYPE => instantiate (to_class b)
      | SINGLETON =>
          match singletons og !! arg_name with
          | Some v => ret v
          | None =>
              v <~ instantiate (to_class b) ;;
              remember g arg_name v ;;;
              ret v
          end
      end
  end.

(** Modelled from the spec: the recursive construction behind [provide].
    [building] lists the classes under construction, so a cycle is an
    error; [fuel] bounds the depth of the recursion. *)
Fixpoint instantiate (fuel : nat) (g : nat) (building : list pyclass)
    (c : pyclass) : M value :=
  if bool_decide (c ∈ building) then raise (CyclicDependencyError c)
  else
    match fuel with
    | 0 => raise OutOfFuel
    | S fuel' =>
        args <~ mapM (resolve_arg g (instantiate fuel' g (c :: building))) (init_args c) ;;
        new c args
    end.

(** There are six classes, so no chain of distinct classes under
    construction is longer than six. *)
Definition provide_depth : nat := 6.

(** Modelled from the spec: [obj_graph.provide(cls)]. *)
Definition provide (g : nat) (c : pyclass) : M value :=
  instantiate provide_depth g [] c.

(** ** The module's functions *)

(** The body of [process_order_no_di] for an order with the given
    identifier. *)
Definition process_order_no_di_on (order_id : string) : M value :=
  order_context <~ new SqlLiteOrderContext [] ;;
  order_service <~ new OrderService [order_context] ;;
  order <~ new Order [VStr order_id] ;;
  OrderService_process_order order_service order ;;;
  ret VNone.

(** [process_order_no_di] (lines 39-44) *)
Definition process_order_no_di : M value :=
  process_order_no_di_on "order-123".

(** The body of [process_order_di] for an order with the given
    identifier. *)
Definition process_order_di_on (order_id : string) : M value :=
  binding_spec <~ new OrderContextBindingSpec [] ;;
  obj_graph <~ new_object_graph [binding_spec] ;;
  order_service <~ provide obj_graph OrderService ;;
  order <~ new Order [VStr order_id] ;;
  OrderService_process_order order_service order ;;;
  ret VNone.

(** [process_order_di] (lines 47-52) *)
Definition process_order_di : M value :=
  process_order_di_on "order-123".

(** [process_order_singleton] (lines 55-59) *)
Definition process_order_singleton : M value :=
  binding_spec <~ new OrderContextBindingSpec [] ;;
  obj_graph <~ new_object_graph [binding_spec] ;;
  order_service_1 <~ provide obj_graph OrderService ;;
  order_service_2 <~ provide obj_graph OrderService ;;
  order_context_1 <~ getattr order_service_1 "order_context" ;;
  order_context_2 <~ getattr order_service_2 "order_context" ;;
  print (str_bool (is_ order_context_1 order_context_2)) ;;;
  ret VNone.

(** [process_order_prototype] (lines 62-66) *)
Definition process_order_prototype : M value :=
  binding_spec <~ new OrderContextBindingSpec [] ;;
  obj_graph <~ new_object_graph [binding_spec] ;;
  order_service_1 <~ provide obj_graph OrderService ;;
  order_service_2 <~ provide obj_graph OrderService ;;
  order_context_1 <~ getattr order_service_1 "order_context" ;;
  order_context_2 <~ getattr order_service_2 "order_context" ;;
  print (str_bool (is_ order_context_1 order_context_2)) ;;;
  ret VNone.

(** The script's entry point (lines 69-73): only the last scenario is
    enabled. *)
Definition main : M value := process_order_prototype.

(** ** Vocabulary of the statements *)

(** The world after one more instance was stored. *)
Definition push (w : world) (i : instance) : world :=
  {| heap := heap w ++ [i]; graphs := graphs w;
     stdout := stdout w; calls := calls w |}.

(** The world after one more line was printed. *)
Definition said (w : world) (line : string) : world :=
  {| heap := heap w; graphs := graphs w;
     stdout := stdout w ++ [line]; calls := calls w |}.

(** The world after one more call was logged. *)
Definition logged (w : world) (c : call) : world :=
  {| heap := heap w; graphs := graphs w;
     stdout := stdout w; calls := calls w ++ [c] |}.

(** The world after one more object graph was built. *)
Definition with_graph (w : world) (og : object_graph) : world :=
  {| heap := heap w; graphs := graphs w ++ [og];
     stdout := stdout w; calls := calls w |}.

(** The world in which graph [g] has kept [v] as the instance of the
    singleton-scoped binding [arg_name]. *)
Definition remembering (w : world) (g : nat) (og : object_graph)
    (arg_name : string) (v : value) : world :=
  {| heap := heap w;
     graphs := <[g := {| bindings := bindings og;
                         singletons := <[arg_name := v]> (singletons og) |}]> (graphs w);
     stdout := stdout w; calls := calls w |}.

(** The implementations of [OrderContext]. *)
Definition is_implementation (c : pyclass) : bool :=
  match c with
  | SqlLiteOrderContext | MemoryOrderContext => true
  | _ => false
  end.

(** [needle] occurs in [hay]. *)
Definition occurs_in (needle hay : string) : Prop :=
  ∃ before after, hay = before +:+ needle +:+ after.

(** [process_order] called on one service for each order in turn; an
    exception of one call does not stop the next (the caller catches it). *)
Fixpoint process_all (self : value) (orders : list value) (w : world) : world :=
  match orders with
  | [] => w
  | order :: rest =>
      process_all self rest (snd (OrderService_process_order self order w))
  end.

(** The operations of the module that receive an order. *)
Inductive operation :=
  | Process (service : value)
  | SqlLiteCreate (self : value)
  | MemoryCreate (self : value).

Definition apply_operation (op : operation) (order : value) : M value :=
  match op with
  | Process service => OrderService_process_order service order
  | SqlLiteCreate self => SqlLiteOrderContext_create_order self order
  | MemoryCreate self => MemoryOrderContext_create_order self order
  end.

Fixpoint apply_all (ops : list operation) (order : value) (w : world) : world :=
  match ops with
  | [] => w
  | op :: rest => apply_all rest order (snd (apply_operation op order w))
  end.


(** The world after [OrderService(SqlLiteOrderContext())] in the empty
    one: the implementation instance is object 0, the service object 1. *)
Definition wired_world : world :=
  snd (new OrderService [VRef 0] (snd (new SqlLiteOrderContext [] empty_world))).

(** The world after [new_object_graph] with the binding spec of basic.py
    in the empty one: the binding spec is object 0, the graph is graph 0. *)
Definition graph_world : world :=
  snd ((binding_spec <~ new OrderContextBindingSpec [] ;;
        new_object_graph [binding_spec]) empty_world).

(** [dep] offers no [create_order]: it is no object of a class, or an
    instance with no such entry in its dictionary, of a class that
    defines none. *)
Definition lacks_create_order (w : world) (dep : value) : Prop :=
  match dep with
  | VRef l =>
      ∃ i : instance,
        heap w !! l = Some i
        ∧ attrs i !! "create_order" = None
        ∧ find_create_order (cls i) = None
  | _ => True
  end.

(** The statements of [process_order_no_di] with the class that is
    instantiated for the dependency as a parameter. *)
Definition wire_and_process (c : pyclass) (order_id : string) : M value :=
  order_context <~ new c [] ;;
  order_service <~ new OrderService [order_context] ;;
  order <~ new Order [VStr order_id] ;;
  OrderService_process_order order_service order ;;;
  ret VNone.

(** [c(args...)] can be evaluated: [c] is not abstract and [args] are as
    many as the parameters of [__init__]. *)
Definition constructible (c : pyclass) (args : list value) : bool :=
  negb (is_abstract c) && bool_decide (length args = length (init_args c)).

(** The [create_order] call of receiver [dep] with argument [order]. *)
Definition create_order_call (dep : loc) (order : value) : call :=
  {| receiver := VRef dep; method := "create_order"; argument := order |}.

(** The world after [OrderService(None)] in the empty one: the service
    is object 0. *)
Definition unwired_world : world :=
  snd (new OrderService [VNone] empty_world).

(** A computation that never stops for lack of fuel. *)
Definition fuel_suffices {A} (m : M A) : Prop :=
  ∀ w : world, fst (m w) ≠ Raise OutOfFuel.

(** ** Store lemmas *)

Lemma and_then_ok {A B} (m : M A) (k : A → M B) (w w' : world) (a : A) :
  m w = (Ok a, w') → and_then m k w = k a w'.
Proof. intros H. unfold and_then. by rewrite H. Qed.

Lemma and_then_raise {A B} (m : M A) (k : A → M B) (w w' : world) (e : exn) :
  m w = (Raise e, w') → and_then m k w = (Raise e, w').
Proof. intros H. unfold and_then. by rewrite H. Qed.

Lemma world_eta (w : world) :
  {| heap := heap w; graphs := graphs w; stdout := stdout w; calls := calls w |} = w.
Proof. by destruct w. Qed.

Lemma lookup_push_new (w : world) (i : instance) :
  heap (push w i) !! length (heap w) = Some i.
Proof. simpl. by rewrite list_lookup_middle. Qed.

Lemma length_push (w : world) (i : instance) :
  length (heap (push w i)) = S (length (heap w)).
Proof. simpl. rewrite length_app. simpl. lia. Qed.

Lemma lookup_push_second (w : world) (i j : instance) :
  heap (push (push w i) j) !! S (length (heap w)) = Some j.
Proof. rewrite <- (length_push w i). apply lookup_push_new. Qed.

Lemma lookup_push_third (w : world) (i j k : instance) :
  heap (push (push (push w i) j) k) !! S (S (length (heap w))) = Some k.
Proof. rewrite <- (length_push w i). apply lookup_push_second. Qed.

Lemma lookup_push_old (w : world) (i j : instance) (l : loc) :
  heap w !! l = Some j → heap (push w i) !! l = Some j.
Proof. intros H. simpl. by apply lookup_app_l_Some. Qed.

Lemma setattr_fresh (w : world) (c : pyclass) (name : string) (v : value) :
  setattr (length (heap w)) name v (push w {| cls := c; attrs := ∅ |})
  = (Ok tt, push w {| cls := c; attrs := {[name := v]} |}).
Proof.
  unfold setattr. rewrite lookup_push_new. unfold push; simpl.
  rewrite insert_app_r_alt by lia. rewrite Nat.sub_diag. simpl.
  by rewrite insert_empty.
Qed.

Lemma new_SqlLiteOrderContext (w : world) :
  new SqlLiteOrderContext [] w
  = (Ok (VRef (length (heap w))), push w {| cls := SqlLiteOrderContext; attrs := ∅ |}).
Proof. reflexivity. Qed.

Lemma new_MemoryOrderContext (w : world) :
  new MemoryOrderContext [] w
  = (Ok (VRef (length (heap w))), push w {| cls := MemoryOrderContext; attrs := ∅ |}).
Proof. reflexivity. Qed.

Lemma new_OrderService (w : world) (order_context : value) :
  new OrderService [order_context] w
  = (Ok (VRef (length (heap w))),
     push w {| cls := OrderService; attrs := {["order_context" := order_context]} |}).
Proof.
  unfold new, OrderService_init, and_then, alloc; simpl.
  fold (push w {| cls := OrderService; attrs := ∅ |}).
  by rewrite setattr_fresh.
Qed.

Lemma new_Order (w : world) (order_id : value) :
  new Order [order_id] w
  = (Ok (VRef (length (heap w))),
     push w {| cls := Order; attrs := {["order_id" := order_id]} |}).
Proof.
  unfold new, Order_init, and_then, alloc; simpl.
  fold (push w {| cls := Order; attrs := ∅ |}).
  by rewrite setattr_fresh.
Qed.

Lemma getattr_instance (w : world) (l : loc) (i : instance) (name : string) (v : value) :
  heap w !! l = Some i → attrs i !! name = Some v →
  getattr (VRef l) name w = (Ok v, w).
Proof. intros Hl Ha. unfold getattr. by rewrite Hl, Ha. Qed.

Lemma type_name_instance (w : world) (l : loc) (i : instance) :
  heap w !! l = Some i → type_name (VRef l) w = (Ok (class_name (cls i)), w).
Proof. intros Hl. unfold type_name. by rewrite Hl. Qed.

(** ** What the operations leave alone *)

Lemma SqlLite_create_order_heap (self order : value) (w : world) :
  heap (snd (SqlLiteOrderContext_create_order self order w)) = heap w.
Proof.
  unfold SqlLiteOrderContext_create_order, and_then, type_name.
  destruct self as [| b | s | l]; simpl; try done.
  by destruct (heap w !! l).
Qed.

Lemma Memory_create_order_heap (self order : value) (w : world) :
  heap (snd (MemoryOrderContext_create_order self order w)) = heap w.
Proof.
  unfold MemoryOrderContext_create_order, and_then, type_name.
  destruct self as [| b | s | l]; simpl; try done.
  by destruct (heap w !! l).
Qed.

Lemma call_create_order_heap (obj arg : value) (w : world) :
  heap (snd (call_create_order obj arg w)) = heap w.
Proof.
  unfold call_create_order.
  destruct obj as [| b | s | l]; simpl; try done.
  destruct (heap w !! l) as [i |] eqn:Hl; [| done].
  destruct (attrs i !! "create_order") as [shadow |]; [done |].
  destruct (cls i) eqn:Hc; simpl; try done; unfold and_then, log_call; simpl.
  - apply (SqlLite_create_order_heap (VRef l) arg (logged w _)).
  - apply (Memory_create_order_heap (VRef l) arg (logged w _)).
Qed.

Lemma process_order_heap (self order : value) (w : world) :
  heap (snd (OrderService_process_order self order w)) = heap w.
Proof.
  unfold OrderService_process_order, and_then.
  destruct (getattr self "order_context" w) as [[v | e] w'] eqn:Hg.
  - assert (w' = w) as ->.
    { unfold getattr in Hg. repeat case_match; by simplify_eq. }
    pose proof (call_create_order_heap v order w) as Hcall.
    by destruct (call_create_order v order w) as [[r | e] w''].
  - unfold getattr in Hg. repeat case_match; by simplify_eq.
Qed.

Lemma apply_operation_heap (op : operation) (order : value) (w : world) :
  heap (snd (apply_operation op order w)) = heap w.
Proof.
  destruct op; simpl.
  - apply process_order_heap.
  - apply SqlLite_create_order_heap.
  - apply Memory_create_order_heap.
Qed.

Lemma process_all_heap (self : value) (orders : list value) (w : world) :
  heap (process_all self orders w) = heap w.
Proof.
  revert w. induction orders as [| order rest IH]; intros w; simpl; [done |].
  by rewrite IH, process_order_heap.
Qed.

Lemma apply_all_heap (ops : list operation) (order : value) (w : world) :
  heap (apply_all ops order w) = heap w.
Proof.
  revert w. induction ops as [| op rest IH]; intros w; simpl; [done |].
  by rewrite IH, apply_operation_heap.
Qed.

(** A read of an attribute depends on the heap only. *)
Lemma getattr_same_heap (obj : value) (name : string) (w w' : world) :
  heap w' = heap w →
  fst (getattr obj name w') = fst (getattr obj name w).
Proof.
  intros H. unfold getattr. rewrite H.
  destruct obj; try done. repeat case_match; done.
Qed.

(** ** One run of [create_order] *)

Lemma SqlLite_create_order_run (w : world) (self : loc) (i : instance) (order : value) :
  heap w !! self = Some i →
  SqlLiteOrderContext_create_order (VRef self) order w
  = (Ok VNone, said w ("Order created by " +:+ class_name (cls i))).
Proof.
  intros Hself. unfold SqlLiteOrderContext_create_order, and_then.
  by rewrite (type_name_instance _ _ _ Hself).
Qed.

Lemma Memory_create_order_run (w : world) (self : loc) (i : instance) (order : value) :
  heap w !! self = Some i →
  MemoryOrderContext_create_order (VRef self) order w
  = (Ok VNone, said w ("Order created by " +:+ class_name (cls i))).
Proof.
  intros Hself. unfold MemoryOrderContext_create_order, and_then.
  by rewrite (type_name_instance _ _ _ Hself).
Qed.

Lemma found_create_order_run (w : world) (self : loc) (i : instance) (order : value)
    (body : value → value → M value) :
  heap w !! self = Some i →
  find_create_order (cls i) = Some body →
  body (VRef self) order w
  = (Ok VNone, said w ("Order created by " +:+ class_name (cls i))).
Proof.
  intros Hself Hb.
  destruct (cls i) eqn:Hc; simpl in Hb; simplify_eq.
  - rewrite (SqlLite_create_order_run _ _ _ _ Hself). by rewrite Hc.
  - rewrite (Memory_create_order_run _ _ _ _ Hself). by rewrite Hc.
Qed.

(** ** The two implementations *)

(** C5: for every order and each of the two implementations,
    [create_order] on an instance of the implementation returns [None]
    and changes nothing but standard output, to which it adds one line;
    the line contains the name of the implementation's class. *)
Theorem create_order_returns_None_and_prints_class_name
    (w : world) (self : loc) (i : instance) (order : value) :
  heap w !! self = Some i →
  (cls i = SqlLiteOrderContext →
     SqlLiteOrderContext_create_order (VRef self) order w
     = (Ok VNone, said w "Order created by SqlLiteOrderContext")
     ∧ occurs_in (class_name SqlLiteOrderContext) "Order created by SqlLiteOrderContext")
  ∧ (cls i = MemoryOrderContext →
     MemoryOrderContext_create_order (VRef self) order w
     = (Ok VNone, said w "Order created by MemoryOrderContext")
     ∧ occurs_in (class_name MemoryOrderContext) "Order created by MemoryOrderContext").
Proof.
  intros Hself. split; intros Hcls.
  - split.
    + rewrite (SqlLite_create_order_run _ _ _ _ Hself). by rewrite Hcls.
    + by exists "Order created by ", "".
  - split.
    + rewrite (Memory_create_order_run _ _ _ _ Hself). by rewrite Hcls.
    + by exists "Order created by ", "".
Qed.

(** C9: what [create_order] does is independent of the order it is
    given: for any two arguments (None included), any receiver and any
    world, both implementations return the same outcome and leave the
    same world, standard output included. *)
Theorem create_order_ignores_order (self order1 order2 : value) (w : world) :
  SqlLiteOrderContext_create_order self order1 w
  = SqlLiteOrderContext_create_order self order2 w
  ∧ MemoryOrderContext_create_order self order1 w
    = MemoryOrderContext_create_order self order2 w
  ∧ stdout (snd (SqlLiteOrderContext_create_order self order1 w))
    = stdout (snd (SqlLiteOrderContext_create_order self VNone w))
  ∧ stdout (snd (MemoryOrderContext_create_order self order1 w))
    = stdout (snd (MemoryOrderContext_create_order self VNone w)).
Proof. repeat split. Qed.

(** ** The service *)

(** An entry [create_order] in the dictionary of the receiver hides the
    method of its class: the call raises and no method body runs. *)
Lemma call_create_order_hidden
    (w : world) (l : loc) (i : instance) (hidden arg : value) :
  heap w !! l = Some i →
  attrs i !! "create_order" = Some hidden →
  call_create_order (VRef l) arg w = (Raise (TypeError "object is not callable"), w).
Proof. intros Hl Hh. unfold call_create_order. by rewrite Hl, Hh. Qed.

Lemma process_order_run
    (w : world) (service dep : loc) (si di : instance) (order : value)
    (body : value → value → M value) :
  heap w !! service = Some si →
  attrs si !! "order_context" = Some (VRef dep) →
  heap w !! dep = Some di →
  attrs di !! "create_order" = None →
  find_create_order (cls di) = Some body →
  OrderService_process_order (VRef service) order w
  = (body (VRef dep) order ;;; ret VNone)
      (logged w {| receiver := VRef dep; method := "create_order"; argument := order |}).
Proof.
  intros Hs Ha Hd Hplain Hb. unfold OrderService_process_order.
  rewrite (and_then_ok _ _ w w (VRef dep)) by (by eapply getattr_instance).
  unfold and_then, call_create_order. by rewrite Hd, Hplain, Hb.
Qed.

(** C4: for every order and every service that holds an instance of an
    implementation, one whose [create_order] is the method of its class
    (no entry of the instance dictionary hides it), [process_order] is one
    call of the held instance's [create_order] with that very order and
    nothing besides: the call log grows by exactly that call, and outcome
    and world are those of the implementation's method, the result dropped
    for [None]. *)
Theorem process_order_delegates_once
    (w : world) (service dep : loc) (si di : instance) (order : value)
    (body : value → value → M value) :
  heap w !! service = Some si →
  cls si = OrderService →
  attrs si !! "order_context" = Some (VRef dep) →
  heap w !! dep = Some di →
  attrs di !! "create_order" = None →
  find_create_order (cls di) = Some body →
  let the_call :=
    {| receiver := VRef dep; method := "create_order"; argument := order |} in
  let after := snd (OrderService_process_order (VRef service) order w) in
  OrderService_process_order (VRef service) order w
  = (body (VRef dep) order ;;; ret VNone) (logged w the_call)
  ∧ OrderService_process_order (VRef service) order w
    = (Ok VNone, said (logged w the_call) ("Order created by " +:+ class_name (cls di)))
  ∧ calls after = calls w ++ [the_call]
  ∧ heap after = heap w
  ∧ graphs after = graphs w.
Proof.
  intros Hs _ Ha Hd Hplain Hb the_call after.
  pose proof (process_order_run w service dep si di order body Hs Ha Hd Hplain Hb)
    as Hrun.
  fold the_call in Hrun.
  assert (body (VRef dep) order (logged w the_call)
          = (Ok VNone, said (logged w the_call)
                         ("Order created by " +:+ class_name (cls di)))) as Hbody
    by (by apply found_create_order_run).
  subst after. rewrite Hrun. unfold and_then. rewrite Hbody. done.
Qed.

(** C6: a service built by [OrderService(order_context)] has exactly one
    attribute, [order_context], holding the constructor's argument; after
    any sequence of [process_order] calls on it, whatever the orders and
    whether or not a call raises, the instance is the same and reading
    [order_context] gives the constructor's argument. *)
Theorem order_context_never_reassigned
    (w : world) (order_context : value) (orders : list value) :
  let service := length (heap w) in
  let built := snd (new OrderService [order_context] w) in
  let after := process_all (VRef service) orders built in
  fst (new OrderService [order_context] w) = Ok (VRef service)
  ∧ heap built !! service
    = Some {| cls := OrderService; attrs := {["order_context" := order_context]} |}
  ∧ heap after !! service
    = Some {| cls := OrderService; attrs := {["order_context" := order_context]} |}
  ∧ fst (getattr (VRef service) "order_context" after) = Ok order_context.
Proof.
  intros service built after. subst service built after.
  rewrite new_OrderService. cbn [fst snd].
  set (si := {| cls := OrderService; attrs := {["order_context" := order_context]} |}).
  assert (heap (push w si) !! length (heap w) = Some si) as Hbuilt
    by apply lookup_push_new.
  assert (heap (process_all (VRef (length (heap w))) orders (push w si))
          = heap (push w si)) as Hsame by apply process_all_heap.
  split; [done |]. split; [done |]. split.
  - by rewrite Hsame.
  - rewrite (getattr_same_heap _ _ _ _ Hsame).
    rewrite (getattr_instance _ _ _ _ order_context Hbuilt); [done |].
    subst si. simpl. apply lookup_singleton_eq.
Qed.

(** ** The order *)

(** C7: an order built by [Order(order_id)] is not changed by the
    operations it is passed to: after any sequence of
    [OrderService.process_order] and [create_order] calls (either
    implementation, any receiver, raising or not), reading [order_id]
    gives the string the constructor was given. *)
Theorem order_id_unchanged
    (w : world) (order_id : string) (ops : list operation) :
  let order := length (heap w) in
  let built := snd (new Order [VStr order_id] w) in
  let after := apply_all ops (VRef order) built in
  fst (new Order [VStr order_id] w) = Ok (VRef order)
  ∧ fst (getattr (VRef order) "order_id" built) = Ok (VStr order_id)
  ∧ fst (getattr (VRef order) "order_id" after) = Ok (VStr order_id)
  ∧ heap after !! order
    = Some {| cls := Order; attrs := {["order_id" := VStr order_id]} |}.
Proof.
  intros order built after. subst order built after.
  rewrite new_Order. cbn [fst snd].
  set (oi := {| cls := Order; attrs := {["order_id" := VStr order_id]} |}).
  assert (heap (push w oi) !! length (heap w) = Some oi) as Hbuilt
    by apply lookup_push_new.
  assert (heap (apply_all ops (VRef (length (heap w))) (push w oi))
          = heap (push w oi)) as Hsame by apply apply_all_heap.
  assert (fst (getattr (VRef (length (heap w))) "order_id" (push w oi))
          = Ok (VStr order_id)) as Hread.
  { rewrite (getattr_instance _ _ _ _ (VStr order_id) Hbuilt); [done |].
    subst oi. simpl. apply lookup_singleton_eq. }
  split; [done |]. split; [done |]. split.
  - by rewrite (getattr_same_heap _ _ _ _ Hsame).
  - by rewrite Hsame.
Qed.

(** ** The object graph at work *)

Lemma configured_bindings :
  collect_bindings [OrderContextBindingSpec] ∅
  = Ok {["order_context" := {| to_class := MemoryOrderContext; in_scope := PROTOTYPE |}]}.
Proof.
  unfold collect_bindings, find_configure,
    OrderContextBindingSpec_configure, add_binding.
  rewrite lookup_empty. by rewrite insert_empty.
Qed.

Lemma new_OrderContextBindingSpec (w : world) :
  new OrderContextBindingSpec [] w
  = (Ok (VRef (length (heap w))),
     push w {| cls := OrderContextBindingSpec; attrs := ∅ |}).
Proof. reflexivity. Qed.

Lemma new_object_graph_configured (w : world) (spec : loc) (i : instance) :
  heap w !! spec = Some i →
  cls i = OrderContextBindingSpec →
  attrs i !! "configure" = None →
  new_object_graph [VRef spec] w
  = (Ok (length (graphs w)),
     with_graph w
       {| bindings := {["order_context" :=
                          {| to_class := MemoryOrderContext; in_scope := PROTOTYPE |}]};
          singletons := ∅ |}).
Proof.
  intros Hspec Hcls Hplain. unfold new_object_graph, spec_classes, spec_class.
  rewrite Hspec, Hplain, Hcls. by rewrite configured_bindings.
Qed.

Lemma lookup_with_graph (w : world) (og : object_graph) :
  graphs (with_graph w og) !! length (graphs w) = Some og.
Proof. simpl. by rewrite list_lookup_middle. Qed.

Lemma get_graph_at (w : world) (g : nat) (og : object_graph) :
  graphs w !! g = Some og → get_graph g w = (Ok og, w).
Proof. intros H. unfold get_graph. by rewrite H. Qed.

Lemma instantiate_step (fuel g : nat) (building : list pyclass) (c : pyclass) :
  c ∉ building →
  instantiate (S fuel) g building c
  = (args <~ mapM (resolve_arg g (instantiate fuel g (c :: building))) (init_args c) ;;
     new c args).
Proof. intros Hfresh. simpl. by rewrite bool_decide_false. Qed.

(** One dependency [arg_name] resolved on graph [g] of world [w]. *)
Section resolve_arg.

Context (g : nat) (inst : pyclass → M value) (arg_name : string).
Context (w : world) (og : object_graph).
Hypothesis Hgraph : graphs w !! g = Some og.


Lemma resolve_arg_prototype (c : pyclass) :
  bindings og !! arg_name = Some {| to_class := c; in_scope := PROTOTYPE |} →
  resolve_arg g inst arg_name w = inst c w.
Proof.
  intros Hb. unfold resolve_arg.
  rewrite (and_then_ok _ _ w w og) by (by apply get_graph_at).
  by rewrite Hb.
Qed.

Lemma resolve_arg_singleton_kept (c : pyclass) (v : value) :
  bindings og !! arg_name = Some {| to_class := c; in_scope := SINGLETON |} →
  singletons og !! arg_name = Some v →
  resolve_arg g inst arg_name w = (Ok v, w).
Proof.
  intros Hb Hs. unfold resolve_arg.
  rewrite (and_then_ok _ _ w w og) by (by apply get_graph_at).
  rewrite Hb. cbn [in_scope]. by rewrite Hs.
Qed.

Lemma resolve_arg_singleton_first (w' : world) (c : pyclass) (v : value) :
  bindings og !! arg_name = Some {| to_class := c; in_scope := SINGLETON |} →
  singletons og !! arg_name = None →
  inst c w = (Ok v, w') →
  graphs w' = graphs w →
  resolve_arg g inst arg_name w = (Ok v, remembering w' g og arg_name v).
Proof.
  intros Hb Hs Hi Hgr. unfold resolve_arg.
  rewrite (and_then_ok _ _ w w og) by (by apply get_graph_at).
  rewrite Hb. cbn [in_scope to_class]. rewrite Hs.
  rewrite (and_then_ok _ _ w w' v Hi).
  unfold and_then, remember, remembering. by rewrite Hgr, Hgraph.
Qed.

End resolve_arg.

(** An implementation has no dependency: it is built at once. *)
Lemma instantiate_implementation
    (fuel g : nat) (building : list pyclass) (c : pyclass) (w : world) :
  is_implementation c = true → c ∉ building →
  instantiate (S fuel) g building c w
  = (Ok (VRef (length (heap w))), push w {| cls := c; attrs := ∅ |}).
Proof.
  intros Hc Hfresh. rewrite instantiate_step by done.
  destruct c; try discriminate Hc; reflexivity.
Qed.

Lemma implementation_not_building_service (c : pyclass) :
  is_implementation c = true → c ∉ [OrderService].
Proof. intros Hc Hin. apply list_elem_of_singleton in Hin. by subst c. Qed.

(** [provide(OrderService)] when [order_context] is bound in prototype
    scope: a new implementation instance, then a new service holding it. *)
Lemma provide_OrderService_prototype
    (w : world) (g : nat) (og : object_graph) (c : pyclass) :
  graphs w !! g = Some og →
  bindings og !! "order_context" = Some {| to_class := c; in_scope := PROTOTYPE |} →
  is_implementation c = true →
  provide g OrderService w
  = (Ok (VRef (S (length (heap w)))),
     push (push w {| cls := c; attrs := ∅ |})
       {| cls := OrderService;
          attrs := {["order_context" := VRef (length (heap w))]} |}).
Proof.
  intros Hg Hb Hc. unfold provide, provide_depth.
  rewrite instantiate_step by (intros Hin; inversion Hin).
  cbn [init_args mapM]. unfold and_then at 1 2.
  rewrite (resolve_arg_prototype _ _ _ _ _ Hg _ Hb).
  rewrite instantiate_implementation
    by auto using implementation_not_building_service.
  unfold and_then, ret. rewrite new_OrderService.
  simpl. by rewrite length_app, Nat.add_1_r.
Qed.

(** [provide(OrderService)] when [order_context] is bound in singleton
    scope and no instance was kept yet: the implementation instance is
    built and kept, then a new service holds it. *)
Lemma provide_OrderService_singleton_first
    (w : world) (g : nat) (og : object_graph) (c : pyclass) :
  graphs w !! g = Some og →
  bindings og !! "order_context" = Some {| to_class := c; in_scope := SINGLETON |} →
  is_implementation c = true →
  singletons og !! "order_context" = None →
  provide g OrderService w
  = (Ok (VRef (S (length (heap w)))),
     push (remembering (push w {| cls := c; attrs := ∅ |}) g og
             "order_context" (VRef (length (heap w))))
       {| cls := OrderService;
          attrs := {["order_context" := VRef (length (heap w))]} |}).
Proof.
  intros Hg Hb Hc Hs. unfold provide, provide_depth.
  rewrite instantiate_step by (intros Hin; inversion Hin).
  cbn [init_args mapM]. unfold and_then at 1 2.
  rewrite (resolve_arg_singleton_first _ _ _ w og Hg
             (push w {| cls := c; attrs := ∅ |}) c (VRef (length (heap w))))
    by auto using instantiate_implementation, implementation_not_building_service.
  unfold and_then, ret. rewrite new_OrderService.
  simpl. by rewrite length_app, Nat.add_1_r.
Qed.

(** The same when an instance was kept: a new service holds the kept
    instance, and nothing else is built. *)
Lemma provide_OrderService_singleton_kept
    (w : world) (g : nat) (og : object_graph) (c : pyclass) (v : value) :
  graphs w !! g = Some og →
  bindings og !! "order_context" = Some {| to_class := c; in_scope := SINGLETON |} →
  singletons og !! "order_context" = Some v →
  provide g OrderService w
  = (Ok (VRef (length (heap w))),
     push w {| cls := OrderService; attrs := {["order_context" := v]} |}).
Proof.
  intros Hg Hb Hs. unfold provide, provide_depth.
  rewrite instantiate_step by (intros Hin; inversion Hin).
  cbn [init_args mapM]. unfold and_then at 1 2.
  rewrite (resolve_arg_singleton_kept _ _ _ _ _ Hg _ _ Hb Hs).
  unfold and_then, ret. by rewrite new_OrderService.
Qed.

(** Under singleton scope two services resolved from one graph hold the
    same implementation instance. *)
Lemma singleton_scope_shares_instance
    (w : world) (g : nat) (og : object_graph) (c : pyclass) :
  graphs w !! g = Some og →
  bindings og !! "order_context" = Some {| to_class := c; in_scope := SINGLETON |} →
  is_implementation c = true →
  singletons og !! "order_context" = None →
  ∃ (s1 s2 : loc) (d : value) (w1 w2 : world),
    provide g OrderService w = (Ok (VRef s1), w1)
    ∧ provide g OrderService w1 = (Ok (VRef s2), w2)
    ∧ s1 ≠ s2
    ∧ getattr (VRef s1) "order_context" w2 = (Ok d, w2)
    ∧ getattr (VRef s2) "order_context" w2 = (Ok d, w2).
Proof.
  intros Hg Hb Hc Hs.
  pose proof (lookup_lt_Some _ _ _ Hg) as Hlt.
  set (n := length (heap w)).
  set (si := {| cls := OrderService; attrs := {["order_context" := VRef n]} |}).
  set (w1 := push (remembering (push w {| cls := c; attrs := ∅ |}) g og
                     "order_context" (VRef n)) si).
  set (og1 := {| bindings := bindings og;
                 singletons := <["order_context" := VRef n]> (singletons og) |}).
  assert (graphs w1 !! g = Some og1) as Hg1.
  { subst w1 og1. simpl. by rewrite list_lookup_insert_eq. }
  assert (length (heap w1) = S (S n)) as Hlen1.
  { subst w1 n. simpl. rewrite !length_app. simpl. lia. }
  exists (S n), (S (S n)), (VRef n), w1, (push w1 si).
  split; [by apply provide_OrderService_singleton_first |].
  split.
  { rewrite (provide_OrderService_singleton_kept w1 g og1 c (VRef n)); try done.
    - by rewrite Hlen1.
    - subst og1. simpl. apply lookup_insert_eq. }
  split; [lia |].
  split.
  - apply getattr_instance with (i := si).
    + apply lookup_push_old. subst w1. simpl.
      replace (S n) with (length (heap w ++ [{| cls := c; attrs := ∅ |}]))
        by (rewrite length_app; simpl; lia).
      by apply list_lookup_middle.
    + subst si. simpl. apply lookup_singleton_eq.
  - apply getattr_instance with (i := si).
    + rewrite <- Hlen1. apply lookup_push_new.
    + subst si. simpl. apply lookup_singleton_eq.
Qed.

(** ** The depth bound of [provide] is never reached *)

Lemma every_class_listed (l : list pyclass) (c : pyclass) :
  NoDup l → 6 ≤ length l → c ∈ l.
Proof.
  intros Hnd Hlen. destruct (decide (c ∈ l)) as [Hin | Hout]; [done |].
  assert (NoDup (c :: l)) as Hnd' by (by constructor).
  assert (c :: l ⊆+ [Order; OrderContext; SqlLiteOrderContext;
                     MemoryOrderContext; OrderService;
                     OrderContextBindingSpec]) as Hsub.
  { apply NoDup_submseteq; [done |]. intros x _. destruct x; set_solver. }
  apply submseteq_length in Hsub. simpl in Hsub. lia.
Qed.

Lemma fuel_suffices_and_then {A B} (m : M A) (k : A → M B) :
  fuel_suffices m → (∀ a, fuel_suffices (k a)) → fuel_suffices (and_then m k).
Proof.
  intros Hm Hk w. unfold and_then.
  destruct (m w) as [[a | e] w'] eqn:Hrun.
  - apply Hk.
  - specialize (Hm w). rewrite Hrun in Hm. simpl in *.
    intros [= ->]. by apply Hm.
Qed.

Lemma fuel_suffices_mapM {A B} (f : A → M B) (l : list A) :
  (∀ a, fuel_suffices (f a)) → fuel_suffices (mapM f l).
Proof.
  intros Hf. induction l as [| a l IH]; simpl.
  - by intros w.
  - apply fuel_suffices_and_then; [apply Hf |]. intros b.
    apply fuel_suffices_and_then; [apply IH |]. by intros bs w.
Qed.

Lemma fuel_suffices_new (c : pyclass) (args : list value) :
  fuel_suffices (new c args).
Proof.
  intros w. unfold new.
  destruct c; simpl; try done;
    destruct args as [| a [| a' args]]; simpl; try done.
  - unfold and_then, alloc, Order_init; simpl.
    fold (push w {| cls := Order; attrs := ∅ |}). by rewrite setattr_fresh.
  - unfold and_then, alloc, OrderService_init; simpl.
    fold (push w {| cls := OrderService; attrs := ∅ |}). by rewrite setattr_fresh.
Qed.

Lemma fuel_suffices_resolve_arg (g : nat) (inst : pyclass → M value) (arg_name : string) :
  (∀ c, fuel_suffices (inst c)) → fuel_suffices (resolve_arg g inst arg_name).
Proof.
  intros Hinst. unfold resolve_arg.
  apply fuel_suffices_and_then.
  - intros w. unfold get_graph. by destruct (graphs w !! g).
  - intros og. destruct (bindings og !! arg_name) as [b |]; [| by intros w].
    destruct (in_scope b); [| apply Hinst].
    destruct (singletons og !! arg_name) as [v |]; [by intros w |].
    apply fuel_suffices_and_then; [apply Hinst |]. intros v.
    apply fuel_suffices_and_then; [| by intros _ w].
    intros w. unfold remember. by destruct (graphs w !! g).
Qed.

Lemma fuel_suffices_instantiate (fuel g : nat) (building : list pyclass) (c : pyclass) :
  NoDup building → 6 ≤ length building + fuel →
  fuel_suffices (instantiate fuel g building c).
Proof.
  revert building c.
  induction fuel as [| fuel IH]; intros building c Hnd Hlen; simpl;
    destruct (decide (c ∈ building)) as [Hin | Hout].
  - rewrite bool_decide_true by done. by intros w.
  - exfalso. apply Hout. apply every_class_listed; [done | lia].
  - rewrite bool_decide_true by done. by intros w.
  - rewrite bool_decide_false by done.
    apply fuel_suffices_and_then; [| intros args; apply fuel_suffices_new].
    apply fuel_suffices_mapM. intros arg_name.
    apply fuel_suffices_resolve_arg. intros c'.
    apply IH; [by constructor | simpl; lia].
Qed.

(** Whatever the bindings, [provide] ends with an object or a Python
    exception: the depth bound of the embedding is never what stops it. *)
Lemma provide_fuel_suffices (g : nat) (c : pyclass) :
  fuel_suffices (provide g c).
Proof.
  unfold provide, provide_depth.
  apply fuel_suffices_instantiate; [constructor | simpl; lia].
Qed.

(** ** Running the scenarios *)

(** The identity check (lines 56-59 and 63-66), line by line: the binding
    spec, the graph, and for each service a new implementation instance. *)
Lemma identity_check_world (w : world) :
  let n := length (heap w) in
  process_order_prototype w
  = (Ok VNone,
     said
       (push
          (push
             (push
                (push
                   (with_graph
                      (push w {| cls := OrderContextBindingSpec; attrs := ∅ |})
                      {| bindings := {["order_context" :=
                           {| to_class := MemoryOrderContext; in_scope := PROTOTYPE |}]};
                         singletons := ∅ |})
                   {| cls := MemoryOrderContext; attrs := ∅ |})
                {| cls := OrderService; attrs := {["order_context" := VRef (S n)]} |})
             {| cls := MemoryOrderContext; attrs := ∅ |})
          {| cls := OrderService;
             attrs := {["order_context" := VRef (S (S (S n)))]} |})
       "False").
Proof.
  intros n.
  set (og := {| bindings := {["order_context" :=
                  {| to_class := MemoryOrderContext; in_scope := PROTOTYPE |}]};
                singletons := ∅ |}).
  set (bi := {| cls := OrderContextBindingSpec; attrs := ∅ |}).
  set (ci := {| cls := MemoryOrderContext; attrs := ∅ |}).
  set (s1 := {| cls := OrderService; attrs := {["order_context" := VRef (S n)]} |}).
  set (s2 := {| cls := OrderService;
                attrs := {["order_context" := VRef (S (S (S n)))]} |}).
  set (w0 := push w bi).
  set (w1 := with_graph w0 og).
  set (w2 := push (push w1 ci) s1).
  set (w3 := push (push w2 ci) s2).
  assert (length (heap w1) = S n) as Hlen1 by apply length_push.
  assert (length (heap w2) = S (S (S n))) as Hlen2.
  { subst w2. by rewrite !length_push, Hlen1. }
  assert (provide (length (graphs w)) OrderService w1
          = (Ok (VRef (S (S n))), w2)) as Hp1.
  { rewrite (provide_OrderService_prototype w1 _ og MemoryOrderContext);
      [by rewrite Hlen1 | apply (lookup_with_graph w0) | apply lookup_singleton_eq
       | done]. }
  assert (provide (length (graphs w)) OrderService w2
          = (Ok (VRef (S (S (S (S n))))), w3)) as Hp2.
  { rewrite (provide_OrderService_prototype w2 _ og MemoryOrderContext);
      [by rewrite Hlen2 | apply (lookup_with_graph w0) | apply lookup_singleton_eq
       | done]. }
  assert (heap w3 !! S (S n) = Some s1) as Hs1.
  { subst w3. do 2 apply lookup_push_old. subst w2.
    rewrite <- Hlen1. apply lookup_push_second. }
  assert (heap w3 !! S (S (S (S n))) = Some s2) as Hs2.
  { subst w3. rewrite <- Hlen2. apply lookup_push_second. }
  unfold process_order_prototype.
  rewrite (and_then_ok _ _ w w0 (VRef n)) by apply new_OrderContextBindingSpec.
  rewrite (and_then_ok _ _ w0 w1 (length (graphs w)))
    by (apply (new_object_graph_configured w0 n bi);
          [apply lookup_push_new | done | done]).
  rewrite (and_then_ok _ _ w1 w2 _ Hp1).
  rewrite (and_then_ok _ _ w2 w3 _ Hp2).
  rewrite (and_then_ok _ _ w3 w3 (VRef (S n)))
    by (apply getattr_instance with (i := s1); [done | apply lookup_singleton_eq]).
  rewrite (and_then_ok _ _ w3 w3 (VRef (S (S (S n)))))
    by (apply getattr_instance with (i := s2); [done | apply lookup_singleton_eq]).
  unfold is_. rewrite bool_decide_false by (intros [= Heq]; lia).
  reflexivity.
Qed.

(** The comparison of the identity check prints [False]. *)
Lemma identity_check_run (w : world) :
  ∃ w' : world,
    process_order_prototype w = (Ok VNone, w')
    ∧ stdout w' = stdout w ++ ["False"]
    ∧ calls w' = calls w.
Proof.
  eexists. split; [apply identity_check_world |]. done.
Qed.

(** ** The scenarios *)

(** C1: [process_order_singleton] builds its graph from
    [OrderContextBindingSpec], which binds [order_context] in prototype
    scope; the two services hold different instances and the function
    prints [False]. *)
Theorem process_order_singleton_prints_False (w : world) :
  (∃ bs : gmap string binding,
     collect_bindings [OrderContextBindingSpec] ∅ = Ok bs
     ∧ in_scope <$> bs !! "order_context" = Some PROTOTYPE)
  ∧ ∃ w' : world,
      process_order_singleton w = (Ok VNone, w')
      ∧ stdout w' = stdout w ++ ["False"].
Proof.
  split.
  - eexists. split; [apply configured_bindings |].
    by rewrite lookup_singleton_eq.
  - destruct (identity_check_run w) as (w' & Hrun & Hout & _).
    by exists w'.
Qed.

(** C10: [process_order_singleton] and [process_order_prototype] are the
    same program: in every world they give the same outcome and leave the
    same world; both print [False]. *)
Theorem singleton_and_prototype_checks_coincide (w : world) :
  process_order_singleton w = process_order_prototype w
  ∧ ∃ w' : world,
      process_order_prototype w = (Ok VNone, w')
      ∧ stdout w' = stdout w ++ ["False"]
      ∧ calls w' = calls w.
Proof. split; [reflexivity | apply identity_check_run]. Qed.

(** C2: on a graph built from [OrderContextBindingSpec], any two
    [provide(OrderService)] calls, the second in a world that extends the
    one the first call left (what was built is still there, more may have
    been built), return two services that, in the world after both calls,
    hold different instances of [MemoryOrderContext]: comparing the two
    [order_context] with [is] gives [False]. *)
Theorem prototype_scope_distinct_instances
    (g : nat) (w1 w2 : world) (og1 og2 : object_graph) :
  graphs w1 !! g = Some og1 →
  collect_bindings [OrderContextBindingSpec] ∅ = Ok (bindings og1) →
  graphs w2 !! g = Some og2 →
  bindings og2 = bindings og1 →
  heap (snd (provide g OrderService w1)) `prefix_of` heap w2 →
  ∃ (s1 s2 d1 d2 : loc) (w1' w2' : world),
    provide g OrderService w1 = (Ok (VRef s1), w1')
    ∧ provide g OrderService w2 = (Ok (VRef s2), w2')
    ∧ getattr (VRef s1) "order_context" w1' = (Ok (VRef d1), w1')
    ∧ getattr (VRef s1) "order_context" w2' = (Ok (VRef d1), w2')
    ∧ getattr (VRef s2) "order_context" w2' = (Ok (VRef d2), w2')
    ∧ (cls <$> heap w2' !! d1) = Some MemoryOrderContext
    ∧ (cls <$> heap w2' !! d2) = Some MemoryOrderContext
    ∧ d1 ≠ d2
    ∧ s1 ≠ s2
    ∧ is_ (VRef d1) (VRef d2) = false.
Proof.
  intros Hg1 Hbs Hg2 Hsame Hlater.
  rewrite configured_bindings in Hbs. injection Hbs as Hbs.
  assert (bindings og1 !! "order_context"
          = Some {| to_class := MemoryOrderContext; in_scope := PROTOTYPE |}) as Hb1
    by (rewrite <- Hbs; apply lookup_singleton_eq).
  assert (bindings og2 !! "order_context"
          = Some {| to_class := MemoryOrderContext; in_scope := PROTOTYPE |}) as Hb2
    by (by rewrite Hsame).
  pose proof (provide_OrderService_prototype w1 g og1 MemoryOrderContext Hg1 Hb1 eq_refl)
    as Hp1.
  pose proof (provide_OrderService_prototype w2 g og2 MemoryOrderContext Hg2 Hb2 eq_refl)
    as Hp2.
  rewrite Hp1 in Hlater. cbn [snd] in Hlater.
  set (ci := {| cls := MemoryOrderContext; attrs := ∅ |}) in *.
  set (n1 := length (heap w1)) in *.
  set (n2 := length (heap w2)) in *.
  set (i1 := {| cls := OrderService; attrs := {["order_context" := VRef n1]} |}) in *.
  set (i2 := {| cls := OrderService; attrs := {["order_context" := VRef n2]} |}) in *.
  set (w1' := push (push w1 ci) i1) in *.
  set (w2' := push (push w2 ci) i2) in *.
  assert (S (S n1) ≤ n2) as Hle.
  { apply prefix_length in Hlater. subst w1' n1 n2.
    by rewrite !length_push in Hlater. }
  assert (heap w1' !! n1 = Some ci) as Hd1
    by (apply lookup_push_old; apply lookup_push_new).
  assert (heap w1' !! S n1 = Some i1) as Hs1 by apply lookup_push_second.
  assert (∀ (l : loc) (i : instance),
            heap w1' !! l = Some i → heap w2' !! l = Some i) as Hkept.
  { intros l i Hl. do 2 apply lookup_push_old.
    by apply (prefix_lookup_Some (heap w1')). }
  exists (S n1), (S n2), n1, n2, w1', w2'.
  split; [exact Hp1 |]. split; [exact Hp2 |].
  split; [by apply getattr_instance with (i := i1); [| apply lookup_singleton_eq] |].
  split.
  { apply getattr_instance with (i := i1); [by apply Hkept |].
    apply lookup_singleton_eq. }
  split.
  { apply getattr_instance with (i := i2); [apply lookup_push_second |].
    apply lookup_singleton_eq. }
  split; [by rewrite (Hkept n1 ci Hd1) |].
  assert (heap w2' !! n2 = Some ci) as Hd2
    by (apply lookup_push_old; apply lookup_push_new).
  split.
  { change (cls <$> heap w2' !! n2 = Some MemoryOrderContext). by rewrite Hd2. }
  split; [lia |]. split; [lia |].
  unfold is_. apply bool_decide_false. intros [= Heq]. lia.
Qed.

(** The manual wiring, line by line. *)
Lemma process_order_no_di_run (order_id : string) (w : world) :
  let n := length (heap w) in
  process_order_no_di_on order_id w
  = (Ok VNone,
     said
       (logged
          (push
             (push (push w {| cls := SqlLiteOrderContext; attrs := ∅ |})
                {| cls := OrderService; attrs := {["order_context" := VRef n]} |})
             {| cls := Order; attrs := {["order_id" := VStr order_id]} |})
          {| receiver := VRef n; method := "create_order";
             argument := VRef (S (S n)) |})
       "Order created by SqlLiteOrderContext").
Proof.
  intros n.
  set (ci := {| cls := SqlLiteOrderContext; attrs := ∅ |}).
  set (si := {| cls := OrderService; attrs := {["order_context" := VRef n]} |}).
  set (oi := {| cls := Order; attrs := {["order_id" := VStr order_id]} |}).
  set (w3 := push (push (push w ci) si) oi).
  assert (heap w3 !! n = Some ci) as Hc.
  { subst w3. do 2 apply lookup_push_old. apply lookup_push_new. }
  assert (heap w3 !! S n = Some si) as Hs.
  { subst w3. apply lookup_push_old. apply lookup_push_second. }
  unfold process_order_no_di_on.
  rewrite (and_then_ok _ _ w (push w ci) (VRef n)) by apply new_SqlLiteOrderContext.
  rewrite (and_then_ok _ _ (push w ci) (push (push w ci) si) (VRef (S n)))
    by (rewrite new_OrderService; by rewrite length_push).
  rewrite (and_then_ok _ _ (push (push w ci) si) w3 (VRef (S (S n))))
    by (rewrite new_Order; by rewrite !length_push).
  erewrite and_then_ok; [reflexivity |].
  rewrite (process_order_run w3 (S n) n si ci (VRef (S (S n)))
             SqlLiteOrderContext_create_order Hs (lookup_singleton_eq _ _) Hc
             (lookup_empty _) eq_refl).
  unfold and_then. by rewrite (SqlLite_create_order_run _ n ci).
Qed.

(** The container-resolved wiring, line by line. *)
Lemma process_order_di_run (order_id : string) (w : world) :
  let n := length (heap w) in
  process_order_di_on order_id w
  = (Ok VNone,
     said
       (logged
          (push
             (push
                (push
                   (with_graph
                      (push w {| cls := OrderContextBindingSpec; attrs := ∅ |})
                      {| bindings := {["order_context" :=
                           {| to_class := MemoryOrderContext; in_scope := PROTOTYPE |}]};
                         singletons := ∅ |})
                   {| cls := MemoryOrderContext; attrs := ∅ |})
                {| cls := OrderService; attrs := {["order_context" := VRef (S n)]} |})
             {| cls := Order; attrs := {["order_id" := VStr order_id]} |})
          {| receiver := VRef (S n); method := "create_order";
             argument := VRef (S (S (S n))) |})
       "Order created by MemoryOrderContext").
Proof.
  intros n.
  set (og := {| bindings := {["order_context" :=
                  {| to_class := MemoryOrderContext; in_scope := PROTOTYPE |}]};
                singletons := ∅ |}).
  set (bi := {| cls := OrderContextBindingSpec; attrs := ∅ |}).
  set (ci := {| cls := MemoryOrderContext; attrs := ∅ |}).
  set (si := {| cls := OrderService; attrs := {["order_context" := VRef (S n)]} |}).
  set (oi := {| cls := Order; attrs := {["order_id" := VStr order_id]} |}).
  set (w0 := push w bi).
  set (w1 := with_graph w0 og).
  set (w3 := push (push (push w1 ci) si) oi).
  assert (length (heap w1) = S n) as Hlen1 by apply length_push.
  assert (heap w3 !! S n = Some ci) as Hc.
  { subst w3. do 2 apply lookup_push_old. rewrite <- Hlen1. apply lookup_push_new. }
  assert (heap w3 !! S (S n) = Some si) as Hs.
  { subst w3. apply lookup_push_old. rewrite <- Hlen1. apply lookup_push_second. }
  unfold process_order_di_on.
  rewrite (and_then_ok _ _ w w0 (VRef n)) by apply new_OrderContextBindingSpec.
  rewrite (and_then_ok _ _ w0 w1 (length (graphs w)))
    by (apply (new_object_graph_configured w0 n bi);
          [apply lookup_push_new | done | done]).
  rewrite (and_then_ok _ _ w1 (push (push w1 ci) si) (VRef (S (S n)))).
  2:{ rewrite (provide_OrderService_prototype w1 _ og MemoryOrderContext);
        [by rewrite Hlen1 | apply (lookup_with_graph w0) | apply lookup_singleton_eq
         | done]. }
  rewrite (and_then_ok _ _ (push (push w1 ci) si) w3 (VRef (S (S (S n)))))
    by (rewrite new_Order; by rewrite !length_push, Hlen1).
  erewrite and_then_ok; [reflexivity |].
  rewrite (process_order_run w3 (S (S n)) (S n) si ci (VRef (S (S (S n))))
             MemoryOrderContext_create_order Hs (lookup_singleton_eq _ _) Hc
             (lookup_empty _) eq_refl).
  unfold and_then. by rewrite (Memory_create_order_run _ (S n) ci).
Qed.

(** C3, as stated, fails: the manual wiring prints the name of
    [SqlLiteOrderContext], the graph was told to inject
    [MemoryOrderContext]. *)
Lemma manual_and_container_outputs_differ :
  stdout (snd (process_order_no_di empty_world))
  ≠ stdout (snd (process_order_di empty_world)).
Proof.
  unfold process_order_no_di, process_order_di.
  rewrite process_order_no_di_run, process_order_di_run. simpl. discriminate.
Qed.

(** C3, amended: for every order identifier and every world, the manual
    wiring and the container-resolved wiring both return [None], both
    make exactly one [create_order] call, on the instance the service
    holds and with the order just built, and both print exactly one line
    [Order created by <class>]; the class is [SqlLiteOrderContext] for the
    manual wiring and [MemoryOrderContext] for the container.

    The worlds they leave are given in full.  Manual wiring: the new
    objects are the implementation, the service that holds it and the
    order, in this order; no object graph is built.  Container: the new
    objects are the binding spec, the implementation the graph builds,
    the service the graph builds to hold it, and the order; the one new
    graph carries the binding of [order_context] to [MemoryOrderContext]
    and keeps no singleton. *)
Theorem wirings_agree_up_to_implementation_name (order_id : string) (w : world) :
  let n := length (heap w) in
  let service_holding (dep : loc) :=
    {| cls := OrderService; attrs := {["order_context" := VRef dep]} |} in
  let order := {| cls := Order; attrs := {["order_id" := VStr order_id]} |} in
  let configured :=
    {| bindings := {["order_context" :=
         {| to_class := MemoryOrderContext; in_scope := PROTOTYPE |}]};
       singletons := ∅ |} in
  process_order_no_di_on order_id w
  = (Ok VNone,
     said
       (logged
          (push
             (push (push w {| cls := SqlLiteOrderContext; attrs := ∅ |})
                (service_holding n))
             order)
          (create_order_call n (VRef (S (S n)))))
       ("Order created by " +:+ class_name SqlLiteOrderContext))
  ∧ process_order_di_on order_id w
    = (Ok VNone,
       said
         (logged
            (push
               (push
                  (push
                     (with_graph
                        (push w {| cls := OrderContextBindingSpec; attrs := ∅ |})
                        configured)
                     {| cls := MemoryOrderContext; attrs := ∅ |})
                  (service_holding (S n)))
               order)
            (create_order_call (S n) (VRef (S (S (S n))))))
         ("Order created by " +:+ class_name MemoryOrderContext))
  ∧ process_order_no_di = process_order_no_di_on "order-123"
  ∧ process_order_di = process_order_di_on "order-123".
Proof.
  cbv zeta. split; [| split; [| split; reflexivity]].
  - apply process_order_no_di_run.
  - apply process_order_di_run.
Qed.

(** ** Dependencies without a binding *)



(** ** Further properties of the classes *)

Lemma new_implementation (c : pyclass) (w : world) :
  is_implementation c = true →
  new c [] w = (Ok (VRef (length (heap w))), push w {| cls := c; attrs := ∅ |}).
Proof. intros Hc. destruct c; try discriminate Hc; reflexivity. Qed.

Lemma implementation_has_create_order (c : pyclass) :
  is_implementation c = true →
  ∃ body : value → value → M value, find_create_order c = Some body.
Proof. intros Hc. destruct c; try discriminate Hc; simpl; eauto. Qed.

(** One [process_order] on a service that holds an implementation
    instance. *)
Lemma process_order_step
    (w : world) (service dep : loc) (si di : instance) (order : value)
    (body : value → value → M value) :
  heap w !! service = Some si →
  attrs si !! "order_context" = Some (VRef dep) →
  heap w !! dep = Some di →
  attrs di !! "create_order" = None →
  find_create_order (cls di) = Some body →
  OrderService_process_order (VRef service) order w
  = (Ok VNone,
     said (logged w (create_order_call dep order))
       ("Order created by " +:+ class_name (cls di))).
Proof.
  intros Hs Ha Hd Hplain Hb.
  rewrite (process_order_run w service dep si di order body Hs Ha Hd Hplain Hb).
  unfold and_then, create_order_call.
  by rewrite (found_create_order_run (logged w _) dep di order body Hd Hb).
Qed.

(** X1: the name a [create_order] prints is the class of the receiver,
    not the class that defines the method: on an instance of any class,
    both methods return [None] and print [Order created by] followed by
    the receiver's class name; on every receiver the two methods are the
    same function. *)
Theorem create_order_label_is_receiver_class
    (w : world) (self : loc) (i : instance) (receiver order : value) :
  heap w !! self = Some i →
  SqlLiteOrderContext_create_order (VRef self) order w
  = (Ok VNone, said w ("Order created by " +:+ class_name (cls i)))
  ∧ MemoryOrderContext_create_order (VRef self) order w
    = (Ok VNone, said w ("Order created by " +:+ class_name (cls i)))
  ∧ SqlLiteOrderContext_create_order receiver order w
    = MemoryOrderContext_create_order receiver order w.
Proof.
  intros Hself. split; [| split].
  - by apply SqlLite_create_order_run.
  - by apply Memory_create_order_run.
  - reflexivity.
Qed.

(** X2: [process_order] checks nothing before it delegates: on a service
    whose [order_context] offers no [create_order] (None, a string, a
    boolean, an instance of a class without the method and with no such
    entry in its own dictionary, as [Order] and [OrderService] build
    them) it raises [AttributeError] for [create_order], and has printed
    nothing, logged no call and changed no object. *)
Theorem process_order_bad_dependency_raises
    (w : world) (service : loc) (si : instance) (dep order : value) :
  heap w !! service = Some si →
  attrs si !! "order_context" = Some dep →
  lacks_create_order w dep →
  OrderService_process_order (VRef service) order w
  = (Raise (AttributeError "create_order"), w).
Proof.
  intros Hs Ha Hlacks. unfold OrderService_process_order.
  rewrite (and_then_ok _ _ w w dep) by (by eapply getattr_instance).
  apply and_then_raise. unfold call_create_order.
  destruct dep as [| b | str | l]; try reflexivity.
  destruct Hlacks as (i & Hl & Hplain & Hnone). by rewrite Hl, Hplain, Hnone.
Qed.

(** X3: instantiation succeeds exactly when the class is not abstract
    and is given as many arguments as its [__init__] has parameters.
    Then the new object has a fresh identity and holds each argument
    under the name of its parameter, and nothing else changes; otherwise
    a [TypeError] is raised and nothing is built. *)
Theorem new_succeeds_iff_constructible (c : pyclass) (args : list value) (w : world) :
  (constructible c args = true →
     new c args w
     = (Ok (VRef (length (heap w))),
        push w {| cls := c; attrs := list_to_map (zip (init_args c) args) |}))
  ∧ (constructible c args = false →
     ∃ msg : string, new c args w = (Raise (TypeError msg), w)).
Proof.
  unfold constructible. split; intros Hc.
  - apply andb_true_iff in Hc as [Habs Hlen].
    apply bool_decide_eq_true in Hlen.
    destruct c; try discriminate Habs;
      destruct args as [| a [| a' args]]; try discriminate Hlen; simpl zip.
    + rewrite new_Order. by rewrite list_to_map_cons, list_to_map_nil, insert_empty.
    + by rewrite new_SqlLiteOrderContext.
    + by rewrite new_MemoryOrderContext.
    + rewrite new_OrderService.
      by rewrite list_to_map_cons, list_to_map_nil, insert_empty.
    + by rewrite new_OrderContextBindingSpec.
  - apply andb_false_iff in Hc as [Habs | Hlen].
    + destruct c; try discriminate Habs. eexists. reflexivity.
    + apply bool_decide_eq_false in Hlen.
      destruct c; destruct args as [| a [| a' args]];
        try (exfalso; apply Hlen; reflexivity); eexists; reflexivity.
Qed.

(** X4: the service works with either implementation: wired by hand with
    a new instance of implementation [c], [process_order] on a new order
    returns [None], prints the one line naming [c], dispatches the one
    [create_order] call with that order, and builds three objects and no
    object graph.  With [SqlLiteOrderContext] these are the statements of
    [process_order_no_di]. *)
Theorem service_works_with_either_implementation
    (c : pyclass) (order_id : string) (w : world) :
  is_implementation c = true →
  let n := length (heap w) in
  wire_and_process c order_id w
  = (Ok VNone,
     said
       (logged
          (push
             (push (push w {| cls := c; attrs := ∅ |})
                {| cls := OrderService; attrs := {["order_context" := VRef n]} |})
             {| cls := Order; attrs := {["order_id" := VStr order_id]} |})
          (create_order_call n (VRef (S (S n)))))
       ("Order created by " +:+ class_name c))
  ∧ process_order_no_di_on order_id = wire_and_process SqlLiteOrderContext order_id.
Proof.
  intros Hc n. split; [| reflexivity].
  destruct (implementation_has_create_order c Hc) as [body Hbody].
  set (ci := {| cls := c; attrs := ∅ |}).
  set (si := {| cls := OrderService; attrs := {["order_context" := VRef n]} |}).
  set (oi := {| cls := Order; attrs := {["order_id" := VStr order_id]} |}).
  set (w3 := push (push (push w ci) si) oi).
  assert (heap w3 !! n = Some ci) as Hd.
  { subst w3. do 2 apply lookup_push_old. apply lookup_push_new. }
  assert (heap w3 !! S n = Some si) as Hs.
  { subst w3. apply lookup_push_old. apply lookup_push_second. }
  unfold wire_and_process.
  rewrite (and_then_ok _ _ w (push w ci) (VRef n)) by (by apply new_implementation).
  rewrite (and_then_ok _ _ (push w ci) (push (push w ci) si) (VRef (S n)))
    by (rewrite new_OrderService; by rewrite length_push).
  rewrite (and_then_ok _ _ (push (push w ci) si) w3 (VRef (S (S n))))
    by (rewrite new_Order; by rewrite !length_push).
  erewrite and_then_ok; [reflexivity |].
  by rewrite (process_order_step w3 (S n) n si ci (VRef (S (S n))) body
                Hs (lookup_singleton_eq _ _) Hd (lookup_empty _) Hbody).
Qed.

(** X5: a service can be used again and again: when it holds an
    implementation instance whose [create_order] is the method of its
    class (no entry of the instance dictionary hides it), [process_order]
    called for each order of a list prints one line per order, always the
    line of that implementation, and dispatches one [create_order] call
    per order, in the order of the list and each with its own order; no
    object is changed. *)
Theorem process_all_one_call_per_order
    (orders : list value) (w : world) (service dep : loc) (si di : instance)
    (body : value → value → M value) :
  heap w !! service = Some si →
  attrs si !! "order_context" = Some (VRef dep) →
  heap w !! dep = Some di →
  attrs di !! "create_order" = None →
  find_create_order (cls di) = Some body →
  let after := process_all (VRef service) orders w in
  stdout after
  = stdout w ++ replicate (length orders) ("Order created by " +:+ class_name (cls di))
  ∧ calls after = calls w ++ (create_order_call dep <$> orders)
  ∧ heap after = heap w
  ∧ graphs after = graphs w.
Proof.
  intros Hs Ha Hd Hplain Hb. cbv zeta. revert w Hs Hd.
  induction orders as [| order rest IH]; intros w Hs Hd.
  - simpl. by rewrite !app_nil_r.
  - cbn [process_all].
    rewrite (process_order_step w service dep si di order body Hs Ha Hd Hplain Hb).
    cbn [snd].
    destruct (IH (said (logged w (create_order_call dep order))
                    ("Order created by " +:+ class_name (cls di))) Hs Hd)
      as (Hout & Hcalls & Hheap & Hgraphs).
    rewrite Hout, Hcalls, Hheap, Hgraphs. simpl.
    by rewrite <- !app_assoc.
Qed.

Lemma call_create_order_ignores_argument (obj arg1 arg2 : value) (w : world) :
  fst (call_create_order obj arg1 w) = fst (call_create_order obj arg2 w)
  ∧ stdout (snd (call_create_order obj arg1 w))
    = stdout (snd (call_create_order obj arg2 w)).
Proof.
  unfold call_create_order.
  destruct obj as [| b | str | l]; try done.
  destruct (heap w !! l) as [i |] eqn:Hl; [| done].
  destruct (attrs i !! "create_order") as [shadow |]; [done |].
  destruct (find_create_order (cls i)) as [body |] eqn:Hb; [| done].
  rewrite (and_then_ok _ _ w (logged w (create_order_call l arg1)) tt) by reflexivity.
  rewrite (and_then_ok _ _ w (logged w (create_order_call l arg2)) tt) by reflexivity.
  by rewrite !(found_create_order_run (logged w _) l i _ body Hl Hb).
Qed.

(** X8: [process_order] never looks at the order: for any receiver and
    any two arguments, None included, the outcome, the lines printed and
    the objects are the same; only the argument noted in the call log
    can differ. *)
Theorem process_order_ignores_order (self order1 order2 : value) (w : world) :
  fst (OrderService_process_order self order1 w)
  = fst (OrderService_process_order self order2 w)
  ∧ stdout (snd (OrderService_process_order self order1 w))
    = stdout (snd (OrderService_process_order self order2 w))
  ∧ heap (snd (OrderService_process_order self order1 w))
    = heap (snd (OrderService_process_order self order2 w)).
Proof.
  split; [| split]; [| | by rewrite !process_order_heap].
  - unfold OrderService_process_order, and_then.
    destruct (getattr self "order_context" w) as [[dep | e] w'] eqn:Hg; [| done].
    destruct (call_create_order_ignores_argument dep order1 order2 w') as [Hfst _].
    destruct (call_create_order dep order1 w') as [[r1 | e1] w1];
      destruct (call_create_order dep order2 w') as [[r2 | e2] w2];
      simpl in Hfst; by simplify_eq.
  - unfold OrderService_process_order, and_then.
    destruct (getattr self "order_context" w) as [[dep | e] w'] eqn:Hg; [| done].
    destruct (call_create_order_ignores_argument dep order1 order2 w') as [Hfst Hout].
    destruct (call_create_order dep order1 w') as [[r1 | e1] w1];
      destruct (call_create_order dep order2 w') as [[r2 | e2] w2];
      simpl in Hfst, Hout; by simplify_eq.
Qed.

(** ** Further properties of the scenarios *)

(** X6: [process_order_no_di] needs no container: in every world it
    returns [None] and prints the line of [SqlLiteOrderContext]; it adds
    three objects, the implementation, the service holding it and the
    order [order-123], and leaves every existing object and every object
    graph as it was. *)
Theorem process_order_no_di_frame (w : world) :
  let n := length (heap w) in
  let after := snd (process_order_no_di w) in
  fst (process_order_no_di w) = Ok VNone
  ∧ stdout after = stdout w ++ ["Order created by SqlLiteOrderContext"]
  ∧ graphs after = graphs w
  ∧ heap after
    = heap w ++ [{| cls := SqlLiteOrderContext; attrs := ∅ |};
                 {| cls := OrderService; attrs := {["order_context" := VRef n]} |};
                 {| cls := Order; attrs := {["order_id" := VStr "order-123"]} |}].
Proof.
  intros n after. subst n after. unfold process_order_no_di.
  rewrite process_order_no_di_run. cbn [fst snd].
  split; [done |]. split; [done |]. split; [done |].
  simpl. by rewrite <- !app_assoc.
Qed.

(** X7: the script as committed (line 73 alone is enabled) creates and
    processes no order: in every world [main] returns [None], prints the
    single line [False] and no [Order created by] line, dispatches no
    [create_order] call, and the five instances of the module's classes
    it builds are the binding spec, and twice an implementation instance
    and the service holding it. *)
Theorem main_processes_no_order (w : world) :
  let n := length (heap w) in
  let after := snd (main w) in
  fst (main w) = Ok VNone
  ∧ stdout after = stdout w ++ ["False"]
  ∧ calls after = calls w
  ∧ heap after
    = heap w ++ [{| cls := OrderContextBindingSpec; attrs := ∅ |};
                 {| cls := MemoryOrderContext; attrs := ∅ |};
                 {| cls := OrderService;
                    attrs := {["order_context" := VRef (S n)]} |};
                 {| cls := MemoryOrderContext; attrs := ∅ |};
                 {| cls := OrderService;
                    attrs := {["order_context" := VRef (S (S (S n)))]} |}]
  ∧ (∀ i : instance, i ∈ heap after → cls i = Order → i ∈ heap w).
Proof.
  intros n after. subst n after. unfold main.
  rewrite identity_check_world. cbn [fst snd].
  split; [done |]. split; [done |]. split; [done |].
  assert (∀ (h : list instance) (a b c d e : instance),
            ((((h ++ [a]) ++ [b]) ++ [c]) ++ [d]) ++ [e] = h ++ [a; b; c; d; e])
    as Happ.
  { intros h a b c d e. by rewrite <- !app_assoc. }
  split.
  - simpl. apply Happ.
  - intros i Hin Hcls. simpl in Hin. rewrite Happ in Hin.
    apply elem_of_app in Hin as [Hin | Hin]; [done |].
    exfalso.
    repeat (apply elem_of_cons in Hin as [-> | Hin]; [discriminate Hcls |]).
    by apply elem_of_nil in Hin.
Qed.

(** ** The theorems at concrete worlds *)

Lemma create_order_returns_None_and_prints_class_name_witness :
  heap wired_world !! 0 = Some {| cls := SqlLiteOrderContext; attrs := ∅ |}
  ∧ SqlLiteOrderContext_create_order (VRef 0) (VStr "order-123") wired_world
    = (Ok VNone, said wired_world "Order created by SqlLiteOrderContext")
  ∧ occurs_in (class_name SqlLiteOrderContext) "Order created by SqlLiteOrderContext".
Proof.
  split; [reflexivity |].
  apply (create_order_returns_None_and_prints_class_name
           wired_world 0 {| cls := SqlLiteOrderContext; attrs := ∅ |}
           (VStr "order-123")); reflexivity.
Defined.

Lemma process_order_delegates_once_witness :
  heap wired_world !! 1
  = Some {| cls := OrderService; attrs := {["order_context" := VRef 0]} |}
  ∧ heap wired_world !! 0 = Some {| cls := SqlLiteOrderContext; attrs := ∅ |}
  ∧ OrderService_process_order (VRef 1) (VStr "order-123") wired_world
    = (Ok VNone,
       said
         (logged wired_world
            {| receiver := VRef 0; method := "create_order";
               argument := VStr "order-123" |})
         "Order created by SqlLiteOrderContext").
Proof.
  split; [reflexivity |]. split; [reflexivity |].
  apply (process_order_delegates_once
           wired_world 1 0
           {| cls := OrderService; attrs := {["order_context" := VRef 0]} |}
           {| cls := SqlLiteOrderContext; attrs := ∅ |}
           (VStr "order-123") SqlLiteOrderContext_create_order); reflexivity.
Defined.

Lemma prototype_scope_distinct_instances_witness :
  ∃ (s1 s2 d1 d2 : loc) (w1' w2' : world),
    provide 0 OrderService graph_world = (Ok (VRef s1), w1')
    ∧ provide 0 OrderService w1' = (Ok (VRef s2), w2')
    ∧ getattr (VRef s1) "order_context" w2' = (Ok (VRef d1), w2')
    ∧ getattr (VRef s2) "order_context" w2' = (Ok (VRef d2), w2')
    ∧ is_ (VRef d1) (VRef d2) = false.
Proof.
  destruct (prototype_scope_distinct_instances
              0 graph_world (snd (provide 0 OrderService graph_world))
              {| bindings := {["order_context" :=
                   {| to_class := MemoryOrderContext; in_scope := PROTOTYPE |}]};
                 singletons := ∅ |}
              {| bindings := {["order_context" :=
                   {| to_class := MemoryOrderContext; in_scope := PROTOTYPE |}]};
                 singletons := ∅ |})
    as (s1 & s2 & d1 & d2 & w1' & w2' & H1 & H2 & _ & H3 & H4 & _ & _ & _ & _ & H5).
  - reflexivity.
  - reflexivity.
  - reflexivity.
  - reflexivity.
  - exists []. symmetry. apply app_nil_r.
  - exists s1, s2, d1, d2, w1', w2'.
    rewrite H1 in H2. cbn [snd] in H2. done.
Defined.


Lemma create_order_label_is_receiver_class_witness :
  heap wired_world !! 1
  = Some {| cls := OrderService; attrs := {["order_context" := VRef 0]} |}
  ∧ SqlLiteOrderContext_create_order (VRef 1) VNone wired_world
    = (Ok VNone, said wired_world "Order created by OrderService").
Proof.
  split; [reflexivity |].
  apply (create_order_label_is_receiver_class wired_world 1
           {| cls := OrderService; attrs := {["order_context" := VRef 0]} |}
           VNone VNone).
  reflexivity.
Defined.

Lemma process_order_bad_dependency_raises_witness :
  heap unwired_world !! 0
  = Some {| cls := OrderService; attrs := {["order_context" := VNone]} |}
  ∧ OrderService_process_order (VRef 0) (VStr "order-123") unwired_world
    = (Raise (AttributeError "create_order"), unwired_world).
Proof.
  split; [reflexivity |].
  apply (process_order_bad_dependency_raises unwired_world 0
           {| cls := OrderService; attrs := {["order_context" := VNone]} |}
           VNone (VStr "order-123")).
  - reflexivity.
  - reflexivity.
  - exact I.
Defined.

Lemma service_works_with_either_implementation_witness :
  is_implementation MemoryOrderContext = true
  ∧ stdout (snd (wire_and_process MemoryOrderContext "order-123" empty_world))
    = ["Order created by MemoryOrderContext"].
Proof.
  split; [reflexivity |].
  rewrite (proj1 (service_works_with_either_implementation
                    MemoryOrderContext "order-123" empty_world eq_refl)).
  reflexivity.
Defined.

Lemma process_all_one_call_per_order_witness :
  stdout (process_all (VRef 1) [VNone; VStr "order-123"] wired_world)
  = ["Order created by SqlLiteOrderContext"; "Order created by SqlLiteOrderContext"]
  ∧ calls (process_all (VRef 1) [VNone; VStr "order-123"] wired_world)
    = [create_order_call 0 VNone; create_order_call 0 (VStr "order-123")].
Proof.
  destruct (process_all_one_call_per_order
              [VNone; VStr "order-123"] wired_world 1 0
              {| cls := OrderService; attrs := {["order_context" := VRef 0]} |}
              {| cls := SqlLiteOrderContext; attrs := ∅ |}
              SqlLiteOrderContext_create_order)
    as (Hout & Hcalls & _);
    [reflexivity | reflexivity | reflexivity | reflexivity | reflexivity |].
  split; [exact Hout | exact Hcalls].
Defined.
